(** * JsonFetchClient: the JSON response handlers of plume-http

    A shallow embedding of
    [templates/admin/src/lib/plume-http/client/JsonFetchClient.ts]:
    the content-type validator, the default JSON error mapper, the JSON
    resolver and the handler pipeline they are plugged into.

    Conventions of the embedding.
    - A JavaScript value that may be [undefined] is an [option]; [None] is
      [undefined].
    - An effectful computation is a pair: the events it emitted (calls of
      the logger, reads of the response body) and its completion, either a
      normal value or a thrown exception.  A promise is identified with the
      computation that settles it: fulfilled is [Normal], rejected is
      [Throw].
    - Optional parameters with a default value are [option] arguments. *)

From Stdlib Require Import String Ascii List ZArith Bool Lia SpecFloat.
Import ListNotations.
Local Open Scope string_scope.
Local Open Scope list_scope.
Local Open Scope Z_scope.
Set Warnings "-register-all".

(** ** JavaScript values *)

(** The values [Response.json()] can resolve with.  Numbers are IEEE 754
    binary64 values; an object is the list of its own properties. *)
Inductive JsValue : Type :=
| JNull
| JBool (b : bool)
| JNumber (n : spec_float)
| JString (s : string)
| JArray (items : list JsValue)
| JObject (fields : list (string * JsValue)).

(** Exceptions and rejection reasons. *)
Inductive JsError : Type :=
| TypeError (message : string)
| SyntaxError (message : string)
| DOMException (name message : string).

(** Own property lookup in an object literal. *)
Fixpoint assoc (key : string) (fields : list (string * JsValue)) : option JsValue :=
  match fields with
  | [] => None
  | (k, v) :: rest => if String.eqb k key then Some v else assoc key rest
  end.

(** [typeof v] for a value that may be [undefined]. *)
Definition typeof (v : option JsValue) : string :=
  match v with
  | None => "undefined"
  | Some JNull => "object"
  | Some (JBool _) => "boolean"
  | Some (JNumber _) => "number"
  | Some (JString _) => "string"
  | Some (JArray _) => "object"
  | Some (JObject _) => "object"
  end.

(** [ToBoolean]: the falsy values are [null], [false], [0], [-0], [NaN]
    and the empty string. *)
Definition ToBoolean (v : JsValue) : bool :=
  match v with
  | JNull => false
  | JBool b => b
  | JNumber (S754_zero _) => false
  | JNumber S754_nan => false
  | JNumber _ => true
  | JString s => negb (String.eqb s "")
  | JArray _ => true
  | JObject _ => true
  end.

(** ** Strings: [String.prototype.indexOf] *)

(** [indexOf_from i s pat]: [s] is the part of the subject that starts at
    position [i]; the first position at which [pat] occurs, or [-1]. *)
Fixpoint indexOf_from (i : Z) (s pat : string) : Z :=
  if String.prefix pat s then i
  else match s with
       | EmptyString => -1
       | String _ rest => indexOf_from (i + 1) rest pat
       end.

Definition indexOf (s pat : string) : Z := indexOf_from 0 s pat.

(** Containment, as a proposition: [pat] occurs somewhere in [s]. *)
Definition contains (s pat : string) : Prop :=
  exists before after : string, s = (before ++ pat ++ after)%string.

(** ** The HTTP response *)

(** The [Headers] object, seen through its [get] method. *)
Record Headers : Type := { get : string -> option string }.

(** The [Response] of the Fetch API.  [body] is what reading and parsing
    the body settles to: the parsed value, or the reason of the failure. *)
Record Response : Type := {
  status : Z;
  ok : bool;
  headers : Headers;
  body : JsError + JsValue
}.

(** ** Results *)

(** [HttpResponse<T>]: an object with two optional fields. *)
Module HttpResponse.
Record t : Type := { response : option JsValue; error : option JsValue }.

(** Exactly one of the two fields is present. *)
Definition exactly_one (r : t) : bool :=
  match response r, error r with
  | Some _, None => true
  | None, Some _ => true
  | _, _ => false
  end.
End HttpResponse.

(** The object literals [{ response: v }] and [{ error: e }]. *)
Definition response_of (v : JsValue) : HttpResponse.t :=
  {| HttpResponse.response := Some v; HttpResponse.error := None |}.
Definition error_of (e : JsValue) : HttpResponse.t :=
  {| HttpResponse.response := None; HttpResponse.error := Some e |}.

(** ** Effects *)

(** What a logger call is given besides its message. *)
Inductive LogArg : Type :=
| LogResponse (r : Response)
| LogError (e : JsError).

(** One record handed to the logging sink. *)
Record LogEntry : Type := {
  loggerName : string;
  message : string;
  arg : LogArg
}.

Inductive Event : Type :=
| EvLog (entry : LogEntry)
| EvReadBody.

Definition Trace : Type := list Event.

(** Whether the body was read in the course of a trace. *)
Definition bodyRead (t : Trace) : bool :=
  existsb (fun ev => match ev with EvReadBody => true | EvLog _ => false end) t.

Inductive Completion (A : Type) : Type :=
| Normal (a : A)
| Throw (e : JsError).
Arguments Normal {A} a.
Arguments Throw {A} e.

Definition Eff (A : Type) : Type := (Trace * Completion A)%type.

Definition events {A} (m : Eff A) : Trace := fst m.
Definition outcome {A} (m : Eff A) : Completion A := snd m.

Definition ret {A} (a : A) : Eff A := ([], Normal a).
Definition throw {A} (e : JsError) : Eff A := ([], Throw e).
Definition emit (t : Trace) : Eff unit := (t, Normal tt).

Definition bind {A B} (m : Eff A) (f : A -> Eff B) : Eff B :=
  match m with
  | (t, Normal a) => let (t', c) := f a in (t ++ t', c)
  | (t, Throw e) => (t, Throw e)
  end.

Declare Scope eff_scope.
Delimit Scope eff_scope with eff.
Notation "x <- m ;; k" := (bind m (fun x => k))
  (at level 61, m at next level, right associativity) : eff_scope.
Notation "m ;; k" := (bind m (fun _ => k))
  (at level 61, right associativity) : eff_scope.
Local Open Scope eff_scope.

(** Promises, identified with the computation that settles them. *)
Definition Promise : Type -> Type := Eff.

(** [p.then(f)]: [f] runs on the fulfilment value; what it throws rejects
    the new promise. *)
Definition Promise_then {A B} (p : Promise A) (f : A -> Eff B) : Promise B :=
  bind p f.

(** [p.catch(h)]: [h] runs on the rejection reason. *)
Definition Promise_catch {A} (p : Promise A) (h : JsError -> Eff A) : Promise A :=
  match p with
  | (t, Throw e) => let (t', c) := h e in (t ++ t', c)
  | (t, Normal a) => (t, Normal a)
  end.

(** [response.json()]: reads the body, then settles. *)
Definition Response_json (r : Response) : Promise JsValue :=
  emit [EvReadBody] ;;
  match body r with
  | inr v => ret v
  | inl e => throw e
  end.

(** The logger of [simple-logging-system], seen through its [error]
    method: a logger decides which records reach the sink, and a call
    does nothing else. *)
Module Logger.
Record t : Type := { sink : string -> LogArg -> list LogEntry }.

(** [logger.error(message, arg)] *)
Definition error (l : t) (message : string) (arg : LogArg) : Eff unit :=
  emit (map EvLog (sink l message arg)).

(** [new Logger(name)] *)
Definition new (name : string) : t :=
  {| sink := fun message arg =>
       [{| loggerName := name; message := message; arg := arg |}] |}.

(** A logger whose calls do nothing. *)
Definition silent : t := {| sink := fun _ _ => [] |}.
End Logger.

(** A default parameter value: used when the argument is [undefined]. *)
Definition default_arg {A} (dflt : A) (arg : option A) : A :=
  match arg with
  | Some a => a
  | None => dflt
  end.

(** ** Handlers *)

(** A [FetchResponseHandler] returns [undefined] or a promise of a result;
    the promise is identified with the value it settles to. *)
Definition FetchResponseHandler : Type := Response -> Eff (option HttpResponse.t).

(** [return undefined] *)
Definition undefined {A} : Eff (option A) := ret None.

(** [return p] for a promise [p]. *)
Definition returned {A} (p : Promise A) : Eff (option A) :=
  a <- p ;; ret (Some a).

(** [JsonErrorMapper = (response: Response, json: any) => HttpResponse<unknown>] *)
Definition JsonErrorMapper : Type := Response -> JsValue -> Eff HttpResponse.t.

(** Modelled from the spec: [toErrorResponsePromise] of HttpResponse.ts,
    which is not among the sources.  The spec has the content-type
    validator return "a generic-error Result immediately": a promise
    already fulfilled with [{ error }]. *)
Definition toErrorResponsePromise (error : JsValue) : Promise HttpResponse.t :=
  ret (error_of error).

(** [json.errorCode].  Reading a property of [null] throws a [TypeError];
    an object answers with its own property; the other values (booleans,
    numbers, strings, arrays) have no property of that name. *)
Definition errorCode_of (json : JsValue) : Eff (option JsValue) :=
  match json with
  | JNull => throw (TypeError "Cannot read properties of null (reading 'errorCode')")
  | JObject fields => ret (assoc "errorCode" fields)
  | _ => ret None
  end.

(** The [errorCode] field of a parsed object, if it has one. *)
Definition errorCode_field (json : JsValue) : option JsValue :=
  match json with
  | JObject fields => assoc "errorCode" fields
  | _ => None
  end.

Section JsonFetchClient.

(** [genericError] of HttpResponse.ts and the module's [logger]. *)
Variable genericError : JsValue.
Variable logger : Logger.t.

Definition jsonContentTypeValidator
    (response : Response) (jsonContentType : option string)
  : Eff (option HttpResponse.t) :=
  let jsonContentType := default_arg "application/json" jsonContentType in
  let contentType := get (headers response) "content-type" in
  if match contentType with
     | None => true
     | Some contentType => indexOf contentType jsonContentType =? -1
     end
  then
    Logger.error logger "Response type is not JSON" (LogResponse response) ;;
    returned (toErrorResponsePromise genericError)
  else undefined.

Definition defaultJsonErrorMapper : JsonErrorMapper :=
  fun response json =>
    errorCode <- errorCode_of json ;;
    if String.eqb (typeof errorCode) "undefined" then
      Logger.error logger "Unrecognized JSON error" (LogResponse response) ;;
      ret (error_of genericError)
    else ret (error_of json).

Definition toJsonResponse
    (response : Response) (jsonErrorMapper : option JsonErrorMapper)
  : Eff (option HttpResponse.t) :=
  let jsonErrorMapper := default_arg defaultJsonErrorMapper jsonErrorMapper in
  returned
    (Promise_catch
       (Promise_then (Response_json response)
          (fun json =>
             if ok response then ret (response_of json)
             else jsonErrorMapper response json))
       (fun error =>
          Logger.error logger "Cannot parse JSON" (LogError error) ;;
          ret (error_of genericError))).

(** Modelled from the spec: the handler loop of [fetchClient]
    (FetchClient.ts is not among the sources).  Handlers are tried in
    declaration order; the first value other than [undefined] is the
    final result; when every handler answers [undefined] a generic error
    is surfaced. *)
Fixpoint resolve (rawResponse : Response) (handlers : list FetchResponseHandler)
  : Eff HttpResponse.t :=
  match handlers with
  | [] => ret (error_of genericError)
  | handler :: rest =>
      handlerResult <- handler rawResponse ;;
      match handlerResult with
      | Some result => ret result
      | None => resolve rawResponse rest
      end
  end.

(** The collaborators of the pipeline that are not among the sources:
    the request type, the transport that turns a request into the raw
    response, and the status validator. *)
Variable HttpRequest : Type.
Variable transport : HttpRequest -> Response.
Variable validateBasicStatusCodes : FetchResponseHandler.

(** Modelled from the spec: [fetchClient] performs the exchange and
    resolves the raw response with the handlers it was given. *)
Definition fetchClient (httpRequest : HttpRequest) (handlers : list FetchResponseHandler)
  : Eff HttpResponse.t :=
  resolve (transport httpRequest) handlers.

Definition defaultJsonFetchClient (httpRequest : HttpRequest) : Eff HttpResponse.t :=
  fetchClient httpRequest
    [ validateBasicStatusCodes;
      (fun response => jsonContentTypeValidator response None);
      (fun response => toJsonResponse response None) ].

End JsonFetchClient.

(** [const logger = new Logger('JsonFetchClient')] *)
Definition logger : Logger.t := Logger.new "JsonFetchClient".

(** ** Concrete responses *)

(** Header names are matched without regard to ASCII case, values lose
    their leading and trailing whitespace, and the values given under one
    name are joined with a comma and a space, as the [Headers] object of
    the Fetch API does. *)
Definition ascii_lower (c : ascii) : ascii :=
  let n := N_of_ascii c in
  if ((65 <=? n) && (n <=? 90))%N then ascii_of_N (n + 32) else c.

Fixpoint lower (s : string) : string :=
  match s with
  | EmptyString => EmptyString
  | String c rest => String (ascii_lower c) (lower rest)
  end.

(** HTTP whitespace: tab, line feed, carriage return and space. *)
Definition is_http_whitespace (c : ascii) : bool :=
  let n := N_of_ascii c in
  ((n =? 9) || (n =? 10) || (n =? 13) || (n =? 32))%N.

Fixpoint trim_start (s : string) : string :=
  match s with
  | EmptyString => EmptyString
  | String c rest => if is_http_whitespace c then trim_start rest else s
  end.

Fixpoint trim_end (s : string) : string :=
  match s with
  | EmptyString => EmptyString
  | String c rest =>
      match trim_end rest with
      | EmptyString => if is_http_whitespace c then EmptyString else String c EmptyString
      | kept => String c kept
      end
  end.

(** A header value as the [Headers] object stores it: without leading and
    trailing HTTP whitespace. *)
Definition normalize_value (v : string) : string := trim_end (trim_start v).

Fixpoint header_values (name : string) (entries : list (string * string)) : list string :=
  match entries with
  | [] => []
  | (k, v) :: rest =>
      if String.eqb (lower k) name then normalize_value v :: header_values name rest
      else header_values name rest
  end.

Definition Headers_of (entries : list (string * string)) : Headers :=
  {| get := fun name =>
       match header_values (lower name) entries with
       | [] => None
       | values => Some (String.concat ", " values)
       end |}.

(** A response as the transport builds it: [ok] is true exactly for the
    statuses 200 to 299. *)
Definition fetched (status : Z) (entries : list (string * string))
    (body : JsError + JsValue) : Response :=
  {| status := status;
     ok := (200 <=? status) && (status <=? 299);
     headers := Headers_of entries;
     body := body |}.

(** The number [1] as a binary64 value. *)
Definition one : spec_float := S754_finite false 4503599627370496 (-52).

(** A value for [genericError] in the examples. *)
Definition internalError : JsValue :=
  JObject [("errorCode", JString "INTERNAL_ERROR")].

(** A status validator that lets every response through. *)
Definition acceptAnyStatus : FetchResponseHandler := fun _ => undefined.

(** The responses of the scenarios. *)
Definition jsonHeaders : list (string * string) :=
  [("Content-Type", "application/json")].

Definition okResponse : Response :=
  fetched 200 jsonHeaders (inr (JObject [("id", JNumber one)])).

Definition notFoundResponse : Response :=
  fetched 404 jsonHeaders (inr (JObject [("errorCode", JString "NOT_FOUND")])).

Definition serverErrorResponse : Response :=
  fetched 500 jsonHeaders (inr (JObject [("message", JString "oops")])).

Definition htmlResponse : Response :=
  fetched 200 [("Content-Type", "text/html")]
    (inl (SyntaxError "Unexpected token '<'")).

Definition truncatedResponse : Response :=
  fetched 200 jsonHeaders (inl (SyntaxError "Unexpected end of JSON input")).

Definition nullBodyResponse : Response :=
  fetched 400 jsonHeaders (inr JNull).

Definition nullCodeResponse : Response :=
  fetched 400 jsonHeaders (inr (JObject [("errorCode", JNull)])).

Definition vendorResponse : Response :=
  fetched 200 [("content-type", "application/vnd.app.v1+json")] (inr JNull).

Definition plainResponse : Response :=
  fetched 200 [("content-type", "text/plain")] (inr JNull).

Definition upperCaseResponse : Response :=
  fetched 200 [("content-type", "application/JSON")] (inr JNull).

(** The record the module's logger writes. *)
Definition logged (message : string) (arg : LogArg) : Event :=
  EvLog {| loggerName := "JsonFetchClient"; message := message; arg := arg |}.

(** ** Which results the handlers produce *)

(** [produced genericError logger result]: [result] is what the content-type
    validator, the default error mapper or the JSON resolver (with the
    default error mapper) completes with on some input. *)
Inductive produced (genericError : JsValue) (logger : Logger.t)
  : HttpResponse.t -> Prop :=
| produced_by_validator response jsonContentType result :
    outcome (jsonContentTypeValidator genericError logger response jsonContentType)
    = Normal (Some result) ->
    produced genericError logger result
| produced_by_mapper response json result :
    outcome (defaultJsonErrorMapper genericError logger response json)
    = Normal result ->
    produced genericError logger result
| produced_by_resolver response result :
    outcome (toJsonResponse genericError logger response None)
    = Normal (Some result) ->
    produced genericError logger result.

(** ** Handlers over an arbitrary logger call

    To state what the handlers owe to their logger, the call
    [logger.error(message, arg)] is taken here as any effectful function:
    it may emit events, return a value or [undefined], or throw. *)
Definition LogCall : Type := string -> LogArg -> Eff (option JsValue).

(** The call of a [Logger.t]: it writes its records and returns
    [undefined]. *)
Definition logCall (l : Logger.t) : LogCall :=
  fun message arg => Logger.error l message arg ;; ret None.

Section Logging.

Variable genericError : JsValue.
Variable logError : LogCall.

Definition jsonContentTypeValidator_log
    (response : Response) (jsonContentType : option string)
  : Eff (option HttpResponse.t) :=
  let jsonContentType := default_arg "application/json" jsonContentType in
  let contentType := get (headers response) "content-type" in
  if match contentType with
     | None => true
     | Some contentType => indexOf contentType jsonContentType =? -1
     end
  then
    logError "Response type is not JSON" (LogResponse response) ;;
    returned (toErrorResponsePromise genericError)
  else undefined.

Definition defaultJsonErrorMapper_log : JsonErrorMapper :=
  fun response json =>
    errorCode <- errorCode_of json ;;
    if String.eqb (typeof errorCode) "undefined" then
      logError "Unrecognized JSON error" (LogResponse response) ;;
      ret (error_of genericError)
    else ret (error_of json).

Definition toJsonResponse_log
    (response : Response) (jsonErrorMapper : option JsonErrorMapper)
  : Eff (option HttpResponse.t) :=
  let jsonErrorMapper := default_arg defaultJsonErrorMapper_log jsonErrorMapper in
  returned
    (Promise_catch
       (Promise_then (Response_json response)
          (fun json =>
             if ok response then ret (response_of json)
             else jsonErrorMapper response json))
       (fun error =>
          logError "Cannot parse JSON" (LogError error) ;;
          ret (error_of genericError))).

(** The same handlers with the [logger.error] calls removed. *)
Definition jsonContentTypeValidator_unlogged
    (response : Response) (jsonContentType : option string)
  : Eff (option HttpResponse.t) :=
  let jsonContentType := default_arg "application/json" jsonContentType in
  let contentType := get (headers response) "content-type" in
  if match contentType with
     | None => true
     | Some contentType => indexOf contentType jsonContentType =? -1
     end
  then returned (toErrorResponsePromise genericError)
  else undefined.

Definition defaultJsonErrorMapper_unlogged : JsonErrorMapper :=
  fun response json =>
    errorCode <- errorCode_of json ;;
    if String.eqb (typeof errorCode) "undefined" then ret (error_of genericError)
    else ret (error_of json).

Definition toJsonResponse_unlogged
    (response : Response) (jsonErrorMapper : option JsonErrorMapper)
  : Eff (option HttpResponse.t) :=
  let jsonErrorMapper := default_arg defaultJsonErrorMapper_unlogged jsonErrorMapper in
  returned
    (Promise_catch
       (Promise_then (Response_json response)
          (fun json =>
             if ok response then ret (response_of json)
             else jsonErrorMapper response json))
       (fun error => ret (error_of genericError))).

End Logging.

(** A logger call that answers with a value and reads the body on the
    way. *)
Definition chattyLogCall : LogCall :=
  fun message _ => (emit [EvReadBody] ;; ret (Some (JString message))).

(** ** Button: the sample component of the front template

    [templates/front/src/stories/example/button/Button.tsx].  The
    component is a function from its props to the element it renders. *)
Module Button.

(** [size?: 'small' | 'medium' | 'large'] *)
Inductive Size : Type := small | medium | large.

(** The string a size is. *)
Definition Size_text (s : Size) : string :=
  match s with
  | small => "small"
  | medium => "medium"
  | large => "large"
  end.

Section WithHandler.

(** The click handlers, [() => void]. *)
Variable Handler : Type.

(** [interface ButtonProps]; an optional property is an [option]. *)
Record Props : Type := {
  primary : option bool;
  backgroundColor : option string;
  size : option Size;
  label : string;
  onClick : option Handler
}.

(** The rendered [<button>]: its attributes and its content.  What is
    left of the props after destructuring, [onClick], is spread onto the
    element. *)
Record Element : Type := {
  tag : string;
  type_attr : string;
  className : string;
  style_backgroundColor : option string;
  rest_onClick : option Handler;
  children : string
}.

Definition Button (props : Props) : Element :=
  let primary := default_arg false (primary props) in
  let size := default_arg medium (size props) in
  let mode :=
    if primary then "storybook-button--primary" else "storybook-button--secondary" in
  {| tag := "button";
     type_attr := "button";
     className :=
       String.concat " "
         ["storybook-button"; ("storybook-button--" ++ Size_text size)%string; mode];
     style_backgroundColor := backgroundColor props;
     rest_onClick := onClick props;
     children := label props |}.

End WithHandler.

Arguments primary {Handler} _.
Arguments backgroundColor {Handler} _.
Arguments size {Handler} _.
Arguments label {Handler} _.
Arguments onClick {Handler} _.
Arguments className {Handler} _.
Arguments Button {Handler} props.

End Button.

(** Unfolds the operations of the effect monad. *)
Ltac run :=
  unfold returned, undefined, toErrorResponsePromise, Promise_catch, Promise_then,
    Response_json, Logger.error, emit, ret, throw, bind, outcome, events;
  simpl.

(** * Properties *)

(** ** Substring search *)

Lemma prefix_app (pat s : string) :
  String.prefix pat s = true <-> exists after, s = (pat ++ after)%string.
Proof.
  revert s; induction pat as [|c pat IH]; intros s; simpl.
  - split; [intros _; exists s; reflexivity | intros _; destruct s; reflexivity].
  - destruct s as [|d s].
    + split; [discriminate | intros [after H]; discriminate].
    + simpl. destruct (ascii_dec c d) as [->|Hne].
      * rewrite IH. split; intros [after H]; exists after.
        -- now rewrite H.
        -- now injection H.
      * split; [discriminate | intros [after H]]. injection H as H1 _.
        now elim Hne.
Qed.

Lemma contains_prefix (pat s : string) :
  String.prefix pat s = true -> contains s pat.
Proof.
  intros H. apply prefix_app in H as [after ->]. now exists EmptyString, after.
Qed.

Lemma contains_tail (pat : string) (c : ascii) (s : string) :
  String.prefix pat (String c s) = false ->
  (contains (String c s) pat <-> contains s pat).
Proof.
  intros Hp. split.
  - intros [before [after H]]. destruct before as [|b before]; simpl in H.
    + assert (String.prefix pat (String c s) = true) as Ht
        by (apply prefix_app; now exists after).
      congruence.
    + injection H as _ H. now exists before, after.
  - intros [before [after ->]]. now exists (String c before), after.
Qed.

Lemma indexOf_from_spec (pat s : string) (i : Z) :
  0 <= i ->
  (indexOf_from i s pat = -1 <-> ~ contains s pat) /\
  (indexOf_from i s pat = -1 \/ i <= indexOf_from i s pat).
Proof.
  revert i; induction s as [|c s IH]; intros i Hi; cbn [indexOf_from].
  - destruct (String.prefix pat "") eqn:Hp.
    + split; [|right; lia]. split; [intros; exfalso; lia|]. intros Hn. elim Hn.
      now apply contains_prefix.
    + split; [|now left]. split; [|reflexivity]. intros _ [before [after H]].
      destruct before; [|discriminate]. simpl in H.
      assert (String.prefix pat "" = true) as Ht
        by (apply prefix_app; now exists after).
      congruence.
  - destruct (String.prefix pat (String c s)) eqn:Hp.
    + split; [|right; lia]. split; [intros; exfalso; lia|]. intros Hn. elim Hn.
      now apply contains_prefix.
    + destruct (IH (i + 1)) as [IH1 IH2]; [lia|]. split.
      * rewrite IH1. now rewrite (contains_tail _ _ _ Hp).
      * destruct IH2; [now left | right; lia].
Qed.

(** [s.indexOf(pat) === -1] exactly when [pat] does not occur in [s]. *)
Lemma indexOf_not_found (s pat : string) :
  indexOf s pat = -1 <-> ~ contains s pat.
Proof. unfold indexOf. now apply indexOf_from_spec. Qed.

Lemma indexOf_eqb (s pat : string) :
  (indexOf s pat =? -1) = true <-> ~ contains s pat.
Proof. rewrite Z.eqb_eq. apply indexOf_not_found. Qed.

(** Where found, [indexOf] answers a position at which [pat] starts. *)
Lemma indexOf_from_found (pat s : string) (i : Z) :
  indexOf_from i s pat <> -1 ->
  exists before after,
    s = (before ++ pat ++ after)%string /\
    indexOf_from i s pat = i + Z.of_nat (String.length before).
Proof.
  revert i; induction s as [|c s IH]; intros i; cbn [indexOf_from].
  - destruct (String.prefix pat "") eqn:Hp; [|congruence]. intros _.
    apply prefix_app in Hp as [after H]. exists EmptyString, after.
    split; [assumption | simpl; lia].
  - destruct (String.prefix pat (String c s)) eqn:Hp.
    + intros _. apply prefix_app in Hp as [after H]. exists EmptyString, after.
      split; [assumption | simpl; lia].
    + intros H. destruct (IH _ H) as [before [after [-> Hi]]].
      exists (String c before), after. split; [reflexivity|].
      rewrite Hi. simpl String.length. lia.
Qed.

(** ** The effect monad *)

Lemma bind_ret_l {A B} (a : A) (f : A -> Eff B) : bind (ret a) f = f a.
Proof. unfold bind, ret. now destruct (f a). Qed.

Lemma bind_events_normal {A B} (m : Eff A) (f : A -> Eff B) (a : A) :
  outcome m = Normal a ->
  bind m f = (events m ++ events (f a), outcome (f a)).
Proof.
  destruct m as [t c]; simpl. intros ->. unfold bind. now destruct (f a).
Qed.

Lemma bodyRead_app (t1 t2 : Trace) :
  bodyRead (t1 ++ t2) = bodyRead t1 || bodyRead t2.
Proof. apply existsb_app. Qed.

Lemma bodyRead_log (entries : list LogEntry) :
  bodyRead (map EvLog entries) = false.
Proof. induction entries; simpl; auto. Qed.

Section Properties.

Variable genericError : JsValue.
Variable logger : Logger.t.

(** *** The JSON resolver *)

(** The resolver reads the body, and on a successful response logs
    nothing. *)
Lemma toJsonResponse_ok_run response jsonErrorMapper json :
  ok response = true ->
  body response = inr json ->
  toJsonResponse genericError logger response jsonErrorMapper
  = ([EvReadBody], Normal (Some (response_of json))).
Proof.
  intros Hok Hbody. unfold toJsonResponse. run. now rewrite Hbody, Hok.
Qed.

(** C1.  For every response whose [ok] flag is true and whose body
    parses to the JSON value [json], the JSON resolver [toJsonResponse]
    yields the result [{ response: json }], whichever error mapper it
    is given. *)
Theorem toJsonResponse_success response jsonErrorMapper json :
  ok response = true ->
  body response = inr json ->
  outcome (toJsonResponse genericError logger response jsonErrorMapper)
  = Normal (Some (response_of json)).
Proof.
  intros Hok Hbody. now rewrite (toJsonResponse_ok_run _ _ _ Hok Hbody).
Qed.

(** What the default error mapper does, by the [errorCode] field. *)
Lemma defaultJsonErrorMapper_defined response json errorCode :
  errorCode_field json = Some errorCode ->
  defaultJsonErrorMapper genericError logger response json = ([], Normal (error_of json)).
Proof.
  destruct json; simpl; try discriminate. intros H.
  unfold defaultJsonErrorMapper, errorCode_of. run.
  rewrite H. now destruct errorCode.
Qed.

Lemma defaultJsonErrorMapper_undefined response json :
  json <> JNull ->
  errorCode_field json = None ->
  defaultJsonErrorMapper genericError logger response json
  = (map EvLog (Logger.sink logger "Unrecognized JSON error" (LogResponse response)),
     Normal (error_of genericError)).
Proof.
  intros Hn H. unfold defaultJsonErrorMapper, errorCode_of.
  destruct json; try congruence; simpl in H; run; rewrite ?H; simpl;
    now rewrite app_nil_r.
Qed.

Lemma defaultJsonErrorMapper_null response :
  outcome (defaultJsonErrorMapper genericError logger response JNull)
  = Throw (TypeError "Cannot read properties of null (reading 'errorCode')").
Proof. reflexivity. Qed.

(** C2.  For every response whose [ok] flag is false and whose body
    parses to the JSON value [json], under the default error mapper:
    when [json] is an object with an [errorCode] field the result is
    [{ error: json }]; when it has none the result is
    [{ error: genericError }]. *)
Theorem toJsonResponse_failure_default response json :
  ok response = false ->
  body response = inr json ->
  (forall errorCode, errorCode_field json = Some errorCode ->
     outcome (toJsonResponse genericError logger response None) = Normal (Some (error_of json)))
  /\ (errorCode_field json = None ->
      outcome (toJsonResponse genericError logger response None)
      = Normal (Some (error_of genericError))).
Proof.
  intros Hok Hbody. split.
  - intros errorCode H. unfold toJsonResponse. run.
    rewrite Hbody, Hok. simpl.
    now rewrite (defaultJsonErrorMapper_defined response json errorCode H).
  - intros H. unfold toJsonResponse. run.
    rewrite Hbody, Hok. simpl.
    destruct json; try (rewrite defaultJsonErrorMapper_undefined by (congruence || assumption));
      reflexivity.
Qed.

(** When the body cannot be read or parsed, the resolver logs the reason
    and answers with the generic error. *)
Lemma toJsonResponse_rejected_run response jsonErrorMapper reason :
  body response = inl reason ->
  toJsonResponse genericError logger response jsonErrorMapper
  = (EvReadBody
       :: map EvLog (Logger.sink logger "Cannot parse JSON" (LogError reason)),
     Normal (Some (error_of genericError))).
Proof.
  intros Hbody. unfold toJsonResponse. run. rewrite Hbody. simpl.
  now rewrite !app_nil_r.
Qed.

(** C3.  For every response whose body cannot be read or parsed as JSON,
    [toJsonResponse] yields [{ error: genericError }], whatever the [ok]
    flag and the status are and whichever error mapper it is given. *)
Theorem toJsonResponse_unparsable response jsonErrorMapper reason :
  body response = inl reason ->
  outcome (toJsonResponse genericError logger response jsonErrorMapper)
  = Normal (Some (error_of genericError)).
Proof.
  intros Hbody. now rewrite (toJsonResponse_rejected_run _ jsonErrorMapper _ Hbody).
Qed.

(** *** The content-type validator *)

Lemma jsonContentTypeValidator_reject response jsonContentType :
  match get (headers response) "content-type" with
  | None => True
  | Some contentType =>
      ~ contains contentType (default_arg "application/json" jsonContentType)
  end ->
  jsonContentTypeValidator genericError logger response jsonContentType
  = (map EvLog (Logger.sink logger "Response type is not JSON" (LogResponse response)),
     Normal (Some (error_of genericError))).
Proof.
  intros H. unfold jsonContentTypeValidator.
  destruct (get (headers response) "content-type") as [contentType|].
  - apply indexOf_eqb in H. rewrite H. run. now rewrite app_nil_r.
  - run. now rewrite app_nil_r.
Qed.

Lemma jsonContentTypeValidator_pass response jsonContentType contentType :
  get (headers response) "content-type" = Some contentType ->
  contains contentType (default_arg "application/json" jsonContentType) ->
  jsonContentTypeValidator genericError logger response jsonContentType = ([], Normal None).
Proof.
  intros Hget H. unfold jsonContentTypeValidator. rewrite Hget.
  destruct (indexOf contentType _ =? -1) eqn:E; [|reflexivity].
  apply indexOf_eqb in E. now elim E.
Qed.

(** C4.  With [expected] the configured substring (["application/json"]
    when none is given): for every response whose [content-type] header
    is absent or does not contain [expected], [jsonContentTypeValidator]
    returns the result [{ error: genericError }]; for every response
    whose header contains [expected], it returns [undefined]. *)
Theorem jsonContentTypeValidator_verdict response jsonContentType :
  let expected := default_arg "application/json" jsonContentType in
  let header := get (headers response) "content-type" in
  ((header = None \/
    exists contentType, header = Some contentType /\ ~ contains contentType expected) ->
   outcome (jsonContentTypeValidator genericError logger response jsonContentType)
   = Normal (Some (error_of genericError)))
  /\ (forall contentType,
        header = Some contentType -> contains contentType expected ->
        outcome (jsonContentTypeValidator genericError logger response jsonContentType)
        = Normal None).
Proof.
  intros expected header. split.
  - intros H. rewrite jsonContentTypeValidator_reject; [reflexivity|].
    fold header. destruct H as [-> | [contentType [-> H]]]; [exact I | exact H].
  - intros contentType Hget H.
    now rewrite (jsonContentTypeValidator_pass _ _ _ Hget H).
Qed.

(** C7.  Matching is case-sensitive substring containment: with the
    expected substring ["json"], a response whose header is
    ["application/vnd.app.v1+json"] passes (the validator returns
    [undefined]), one whose header is ["text/plain"] fails (the validator
    returns [{ error: genericError }]), and so does one whose header is
    ["application/JSON"], which has the substring only in another case. *)
Theorem jsonContentTypeValidator_partial_match response :
  (get (headers response) "content-type" = Some "application/vnd.app.v1+json" ->
   outcome (jsonContentTypeValidator genericError logger response (Some "json"))
   = Normal None)
  /\ (get (headers response) "content-type" = Some "text/plain" ->
      outcome (jsonContentTypeValidator genericError logger response (Some "json"))
      = Normal (Some (error_of genericError)))
  /\ (get (headers response) "content-type" = Some "application/JSON" ->
      outcome (jsonContentTypeValidator genericError logger response (Some "json"))
      = Normal (Some (error_of genericError))).
Proof.
  unfold jsonContentTypeValidator.
  repeat split; intros ->; reflexivity.
Qed.

(** *** The default error mapper *)

(** C10.  For every parsed JSON object whose [errorCode] field is defined
    but falsy ([null], [false], a zero, the empty string),
    [defaultJsonErrorMapper] returns [{ error: json }], and logs
    nothing: the test is [typeof errorCode === 'undefined'], not
    truthiness. *)
Theorem defaultJsonErrorMapper_falsy_errorCode response json errorCode :
  errorCode_field json = Some errorCode ->
  ToBoolean errorCode = false ->
  defaultJsonErrorMapper genericError logger response json
  = ([], Normal (error_of json)).
Proof.
  intros H _. exact (defaultJsonErrorMapper_defined response json errorCode H).
Qed.

(** The default error mapper completes in one of three ways. *)
Lemma defaultJsonErrorMapper_cases response json :
  outcome (defaultJsonErrorMapper genericError logger response json)
  = Normal (error_of json)
  \/ outcome (defaultJsonErrorMapper genericError logger response json)
     = Normal (error_of genericError)
  \/ exists e,
       outcome (defaultJsonErrorMapper genericError logger response json) = Throw e.
Proof.
  destruct json as [| | | | |fields];
    try (right; left; reflexivity).
  - right; right. eexists. reflexivity.
  - destruct (errorCode_field (JObject fields)) as [errorCode|] eqn:E.
    + left. now rewrite (defaultJsonErrorMapper_defined _ _ _ E).
    + right; left. rewrite defaultJsonErrorMapper_undefined; [reflexivity|discriminate|exact E].
Qed.

(** *** Totality *)

Lemma jsonContentTypeValidator_cases response jsonContentType :
  outcome (jsonContentTypeValidator genericError logger response jsonContentType)
  = Normal None
  \/ outcome (jsonContentTypeValidator genericError logger response jsonContentType)
     = Normal (Some (error_of genericError)).
Proof.
  unfold jsonContentTypeValidator.
  destruct (get (headers response) "content-type") as [contentType|];
    [destruct (indexOf contentType _ =? -1)|]; auto.
Qed.

(** Whatever the callback of [then] throws is absorbed by [catch]. *)
Lemma toJsonResponse_absorbs response jsonErrorMapper json e :
  body response = inr json ->
  ok response = false ->
  outcome (default_arg (defaultJsonErrorMapper genericError logger) jsonErrorMapper
             response json) = Throw e ->
  outcome (toJsonResponse genericError logger response jsonErrorMapper)
  = Normal (Some (error_of genericError)).
Proof.
  intros Hbody Hok H. unfold toJsonResponse. run. rewrite Hbody, Hok. simpl.
  destruct (default_arg _ jsonErrorMapper response json) as [t c].
  simpl in H. now subst c.
Qed.

(** On a failed response the result is the error mapper's. *)
Lemma toJsonResponse_maps response jsonErrorMapper json result :
  body response = inr json ->
  ok response = false ->
  outcome (default_arg (defaultJsonErrorMapper genericError logger) jsonErrorMapper
             response json) = Normal result ->
  outcome (toJsonResponse genericError logger response jsonErrorMapper)
  = Normal (Some result).
Proof.
  intros Hbody Hok H. unfold toJsonResponse. run. rewrite Hbody, Hok. simpl.
  destruct (default_arg _ jsonErrorMapper response json) as [t c].
  simpl in H. now subst c.
Qed.

Lemma toJsonResponse_total response jsonErrorMapper :
  exists result,
    outcome (toJsonResponse genericError logger response jsonErrorMapper)
    = Normal (Some result).
Proof.
  destruct (body response) as [reason|json] eqn:Hbody.
  - eexists. now rewrite (toJsonResponse_rejected_run _ jsonErrorMapper _ Hbody).
  - destruct (ok response) eqn:Hok.
    + exists (response_of json).
      now rewrite (toJsonResponse_ok_run _ jsonErrorMapper _ Hok Hbody).
    + destruct (outcome (default_arg (defaultJsonErrorMapper genericError logger)
                           jsonErrorMapper response json)) as [result|e] eqn:E.
      * exists result. now apply toJsonResponse_maps with (json := json).
      * eexists. now apply toJsonResponse_absorbs with (json := json) (e := e).
Qed.

(** C8.  For every response, content-type substring and error mapper:
    [jsonContentTypeValidator] and [toJsonResponse] complete normally,
    with a value and never with an exception; a failure to read or
    parse the body is absorbed by the [catch] branch into
    [{ error: genericError }], and so is an exception of the error
    mapper. *)
Theorem handlers_total response jsonContentType jsonErrorMapper :
  (exists verdict,
     outcome (jsonContentTypeValidator genericError logger response jsonContentType)
     = Normal verdict)
  /\ (exists result,
        outcome (toJsonResponse genericError logger response jsonErrorMapper)
        = Normal (Some result))
  /\ (forall reason,
        body response = inl reason ->
        outcome (toJsonResponse genericError logger response jsonErrorMapper)
        = Normal (Some (error_of genericError)))
  /\ (forall json e,
        body response = inr json ->
        ok response = false ->
        outcome (default_arg (defaultJsonErrorMapper genericError logger)
                   jsonErrorMapper response json) = Throw e ->
        outcome (toJsonResponse genericError logger response jsonErrorMapper)
        = Normal (Some (error_of genericError))).
Proof.
  split; [|split; [|split]].
  - destruct (jsonContentTypeValidator_cases response jsonContentType) as [H|H];
      rewrite H; eauto.
  - apply toJsonResponse_total.
  - intros reason Hbody.
    now rewrite (toJsonResponse_rejected_run _ jsonErrorMapper _ Hbody).
  - intros json e. apply toJsonResponse_absorbs.
Qed.

(** *** The shape of results *)

Lemma exactly_one_response_of json :
  HttpResponse.exactly_one (response_of json) = true.
Proof. reflexivity. Qed.

Lemma exactly_one_error_of e :
  HttpResponse.exactly_one (error_of e) = true.
Proof. reflexivity. Qed.

(** The JSON resolver with the default error mapper completes with one
    of three results. *)
Lemma toJsonResponse_default_cases response :
  exists result,
    outcome (toJsonResponse genericError logger response None) = Normal (Some result)
    /\ (result = error_of genericError
        \/ exists json, body response = inr json
                        /\ (result = response_of json \/ result = error_of json)).
Proof.
  destruct (body response) as [reason|json] eqn:Hbody.
  - exists (error_of genericError). split; [|now left].
    now rewrite (toJsonResponse_rejected_run _ None _ Hbody).
  - destruct (ok response) eqn:Hok.
    + exists (response_of json).
      split; [now rewrite (toJsonResponse_ok_run _ None _ Hok Hbody)|].
      right. exists json. auto.
    + destruct (defaultJsonErrorMapper_cases response json) as [H|[H|[e H]]].
      * exists (error_of json). split.
        -- now apply toJsonResponse_maps with (json := json).
        -- right. exists json. auto.
      * exists (error_of genericError). split; [|now left].
        now apply toJsonResponse_maps with (json := json).
      * exists (error_of genericError). split; [|now left].
        now apply toJsonResponse_absorbs with (json := json) (e := e).
Qed.

(** C6.  Every result produced by [jsonContentTypeValidator],
    [defaultJsonErrorMapper] or [toJsonResponse] (with the default error
    mapper) has exactly one of its two fields [response] and [error]
    present: never both, never neither. *)
Theorem produced_exactly_one result :
  produced genericError logger result ->
  HttpResponse.exactly_one result = true.
Proof.
  intros [response jsonContentType r H | response json r H | response r H].
  - destruct (jsonContentTypeValidator_cases response jsonContentType) as [E|E];
      rewrite E in H; [discriminate|].
    injection H as <-. apply exactly_one_error_of.
  - destruct (defaultJsonErrorMapper_cases response json) as [E|[E|[e E]]];
      rewrite E in H; [| |discriminate]; injection H as <-;
      apply exactly_one_error_of.
  - destruct (toJsonResponse_default_cases response) as [r' [E Hr]].
    rewrite E in H. injection H as <-.
    destruct Hr as [->|[json [_ [->| ->]]]]; reflexivity.
Qed.

(** *** Logging *)

Lemma outcome_bind {A B} (m : Eff A) (f : A -> Eff B) :
  outcome (bind m f)
  = match outcome m with
    | Normal a => outcome (f a)
    | Throw e => Throw e
    end.
Proof. destruct m as [t [a|e]]; simpl; [now destruct (f a) | reflexivity]. Qed.

Lemma outcome_catch {A} (p : Promise A) (h : JsError -> Eff A) :
  outcome (Promise_catch p h)
  = match outcome p with
    | Normal a => Normal a
    | Throw e => outcome (h e)
    end.
Proof. destruct p as [t [a|e]]; simpl; [reflexivity | now destruct (h e)]. Qed.

(** A logger call that completes normally, whatever it returns, leaves
    the completion of what follows it alone. *)
Lemma outcome_after_log {A} (logError : LogCall) message arg (k : Eff A) :
  (exists v, outcome (logError message arg) = Normal v) ->
  outcome (logError message arg ;; k) = outcome k.
Proof. intros [v H]. now rewrite outcome_bind, H. Qed.

(** The handlers over a [Logger.t] are the handlers over its call. *)
Lemma logCall_then {A} (l : Logger.t) message arg (k : Eff A) :
  (logCall l message arg ;; k) = (Logger.error l message arg ;; k).
Proof.
  unfold logCall, Logger.error, emit, ret, bind. destruct k as [t c].
  now rewrite app_nil_r.
Qed.

Lemma jsonContentTypeValidator_log_logger response jsonContentType :
  jsonContentTypeValidator_log genericError (logCall logger) response jsonContentType
  = jsonContentTypeValidator genericError logger response jsonContentType.
Proof.
  unfold jsonContentTypeValidator_log, jsonContentTypeValidator.
  now rewrite logCall_then.
Qed.

Lemma defaultJsonErrorMapper_log_logger response json :
  defaultJsonErrorMapper_log genericError (logCall logger) response json
  = defaultJsonErrorMapper genericError logger response json.
Proof.
  unfold defaultJsonErrorMapper_log, defaultJsonErrorMapper.
  now rewrite logCall_then.
Qed.

Lemma bind_ext {A B} (m : Eff A) (f g : A -> Eff B) :
  (forall a, f a = g a) -> bind m f = bind m g.
Proof. intros H. destruct m as [t [a|e]]; simpl; [now rewrite H | reflexivity]. Qed.

Lemma Promise_catch_ext {A} (p : Promise A) (h g : JsError -> Eff A) :
  (forall e, h e = g e) -> Promise_catch p h = Promise_catch p g.
Proof. intros H. destruct p as [t [a|e]]; simpl; [reflexivity | now rewrite H]. Qed.

Lemma toJsonResponse_log_logger response jsonErrorMapper :
  toJsonResponse_log genericError (logCall logger) response jsonErrorMapper
  = toJsonResponse genericError logger response jsonErrorMapper.
Proof.
  unfold toJsonResponse_log, toJsonResponse, Promise_then. f_equal.
  rewrite (Promise_catch_ext _ _
             (fun error =>
                Logger.error logger "Cannot parse JSON" (LogError error) ;;
                ret (error_of genericError)))
    by (intros e; apply logCall_then).
  f_equal. apply bind_ext. intros json.
  destruct (ok response); [reflexivity|].
  destruct jsonErrorMapper as [mapper|]; [reflexivity|].
  apply defaultJsonErrorMapper_log_logger.
Qed.

Lemma defaultJsonErrorMapper_log_outcome (logError : LogCall) response json :
  (forall message arg, exists v, outcome (logError message arg) = Normal v) ->
  outcome (defaultJsonErrorMapper_log genericError logError response json)
  = outcome (defaultJsonErrorMapper_unlogged genericError response json).
Proof.
  intros Hlog. unfold defaultJsonErrorMapper_log, defaultJsonErrorMapper_unlogged.
  rewrite !outcome_bind.
  destruct (outcome (errorCode_of json)) as [errorCode|e]; [|reflexivity].
  destruct (String.eqb (typeof errorCode) "undefined"); [|reflexivity].
  now rewrite outcome_after_log by apply Hlog.
Qed.

Lemma jsonContentTypeValidator_log_outcome (logError : LogCall) response jsonContentType :
  (forall message arg, exists v, outcome (logError message arg) = Normal v) ->
  outcome (jsonContentTypeValidator_log genericError logError response jsonContentType)
  = outcome (jsonContentTypeValidator_unlogged genericError response jsonContentType).
Proof.
  intros Hlog. unfold jsonContentTypeValidator_log, jsonContentTypeValidator_unlogged.
  destruct (get (headers response) "content-type") as [contentType|];
    [destruct (indexOf contentType _ =? -1)|];
    try reflexivity; now rewrite outcome_after_log by apply Hlog.
Qed.

Lemma toJsonResponse_log_outcome (logError : LogCall) response jsonErrorMapper :
  (forall message arg, exists v, outcome (logError message arg) = Normal v) ->
  outcome (toJsonResponse_log genericError logError response jsonErrorMapper)
  = outcome (toJsonResponse_unlogged genericError response jsonErrorMapper).
Proof.
  intros Hlog.
  unfold toJsonResponse_log, toJsonResponse_unlogged, returned, Promise_then.
  rewrite !outcome_bind, !outcome_catch, !outcome_bind.
  destruct (outcome (Response_json response)) as [j|reason].
  - destruct (ok response); [reflexivity|].
    assert (outcome (default_arg (defaultJsonErrorMapper_log genericError logError)
                       jsonErrorMapper response j)
            = outcome (default_arg (defaultJsonErrorMapper_unlogged genericError)
                         jsonErrorMapper response j)) as ->.
    { destruct jsonErrorMapper as [mapper|]; [reflexivity|].
      now apply defaultJsonErrorMapper_log_outcome. }
    destruct (outcome (default_arg _ jsonErrorMapper response j)) as [r|e];
      [reflexivity|].
    now rewrite outcome_after_log by apply Hlog.
  - now rewrite outcome_after_log by apply Hlog.
Qed.


(** The call of a [Logger.t] completes normally. *)
Lemma logCall_completes (l : Logger.t) message arg :
  exists v, outcome (logCall l message arg) = Normal v.
Proof. exists None. reflexivity. Qed.

(** So the handlers over the module's kind of logger complete as the
    handlers without their logger calls. *)
Lemma handlers_outcome_unlogged response jsonContentType json jsonErrorMapper :
  outcome (jsonContentTypeValidator genericError logger response jsonContentType)
  = outcome (jsonContentTypeValidator_unlogged genericError response jsonContentType)
  /\ outcome (defaultJsonErrorMapper genericError logger response json)
     = outcome (defaultJsonErrorMapper_unlogged genericError response json)
  /\ outcome (toJsonResponse genericError logger response jsonErrorMapper)
     = outcome (toJsonResponse_unlogged genericError response jsonErrorMapper).
Proof.
  rewrite <- jsonContentTypeValidator_log_logger, <- defaultJsonErrorMapper_log_logger,
    <- toJsonResponse_log_logger.
  split; [|split].
  - apply jsonContentTypeValidator_log_outcome, logCall_completes.
  - apply defaultJsonErrorMapper_log_outcome, logCall_completes.
  - apply toJsonResponse_log_outcome, logCall_completes.
Qed.

(** The completion of a computation that looks at what the logger call
    returns does depend on the logger. *)
Example log_result_can_matter :
  outcome (v <- chattyLogCall "m" (LogError (TypeError "e")) ;; ret v)
  <> outcome (v <- logCall Logger.silent "m" (LogError (TypeError "e")) ;; ret v).
Proof. discriminate. Qed.

(** A logger call that throws is outside the hypothesis: the validator
    then completes with that exception. *)
Example throwing_log_call response :
  get (headers response) "content-type" = None ->
  outcome (jsonContentTypeValidator_log genericError
             (fun _ _ => throw (TypeError "sink closed")) response None)
  = Throw (TypeError "sink closed").
Proof. intros H. unfold jsonContentTypeValidator_log. now rewrite H. Qed.

(** *** The pipeline *)

Lemma resolve_verdict rawResponse handler rest result :
  outcome (handler rawResponse) = Normal (Some result) ->
  resolve genericError rawResponse (handler :: rest)
  = (events (handler rawResponse), Normal result).
Proof.
  intros H. simpl. rewrite (bind_events_normal _ _ _ H). simpl.
  now rewrite app_nil_r.
Qed.

Lemma resolve_pass rawResponse handler rest :
  outcome (handler rawResponse) = Normal None ->
  resolve genericError rawResponse (handler :: rest)
  = (events (handler rawResponse) ++ events (resolve genericError rawResponse rest),
     outcome (resolve genericError rawResponse rest)).
Proof. intros H. simpl. now rewrite (bind_events_normal _ _ _ H). Qed.

(** The handlers before the first verdict all run, in order; the ones
    after it leave no trace. *)
Lemma resolve_first_verdict rawResponse before handler after result :
  Forall (fun h : FetchResponseHandler => outcome (h rawResponse) = Normal None) before ->
  outcome (handler rawResponse) = Normal (Some result) ->
  resolve genericError rawResponse (before ++ handler :: after)
  = (flat_map (fun h : FetchResponseHandler => events (h rawResponse)) before
       ++ events (handler rawResponse),
     Normal result).
Proof.
  intros Hbefore H. induction Hbefore as [|h before Hh _ IH].
  - now apply resolve_verdict.
  - cbn [app flat_map]. rewrite (resolve_pass _ _ _ Hh), IH. simpl.
    now rewrite app_assoc.
Qed.

Section Pipeline.

Variable HttpRequest : Type.
Variable transport : HttpRequest -> Response.
Variable validateBasicStatusCodes : FetchResponseHandler.

(** C5.  In the resolution pipeline the handlers run in declaration
    order and the first value other than [undefined] is the final
    result, the later handlers leaving no trace.  For the JSON client:
    a verdict of [validateBasicStatusCodes] is final; when it passes
    and the content-type check fails the result is
    [{ error: genericError }] and the pipeline reads the body no more
    than the status validator did, [toJsonResponse] never running;
    when both pass, the result is that of [toJsonResponse]. *)
Theorem pipeline_short_circuit (httpRequest : HttpRequest) :
  let rawResponse := transport httpRequest in
  let client :=
    defaultJsonFetchClient genericError logger HttpRequest transport
      validateBasicStatusCodes httpRequest in
  (forall response before handler after result,
     Forall (fun h : FetchResponseHandler => outcome (h response) = Normal None)
       before ->
     outcome (handler response) = Normal (Some result) ->
     resolve genericError response (before ++ handler :: after)
     = (flat_map (fun h : FetchResponseHandler => events (h response)) before
          ++ events (handler response),
        Normal result))
  /\ (forall result,
        outcome (validateBasicStatusCodes rawResponse) = Normal (Some result) ->
        client = (events (validateBasicStatusCodes rawResponse), Normal result))
  /\ (outcome (validateBasicStatusCodes rawResponse) = Normal None ->
      match get (headers rawResponse) "content-type" with
      | None => True
      | Some contentType => ~ contains contentType "application/json"
      end ->
      client
      = (events (validateBasicStatusCodes rawResponse)
           ++ map EvLog (Logger.sink logger "Response type is not JSON"
                           (LogResponse rawResponse)),
         Normal (error_of genericError))
      /\ bodyRead (events client)
         = bodyRead (events (validateBasicStatusCodes rawResponse)))
  /\ (forall contentType,
        outcome (validateBasicStatusCodes rawResponse) = Normal None ->
        get (headers rawResponse) "content-type" = Some contentType ->
        contains contentType "application/json" ->
        exists result,
          outcome (toJsonResponse genericError logger rawResponse None)
          = Normal (Some result)
          /\ client
             = (events (validateBasicStatusCodes rawResponse)
                  ++ events (toJsonResponse genericError logger rawResponse None),
                Normal result)).
Proof.
  intros rawResponse client. split; [|split; [|split]].
  - intros response before handler after result.
    apply resolve_first_verdict.
  - intros result H. now apply resolve_verdict.
  - intros Hstatus Hheader.
    pose proof (jsonContentTypeValidator_reject rawResponse None Hheader) as Hct.
    assert (client
            = (events (validateBasicStatusCodes rawResponse)
                 ++ map EvLog (Logger.sink logger "Response type is not JSON"
                                 (LogResponse rawResponse)),
               Normal (error_of genericError))) as Hclient.
    { unfold client, defaultJsonFetchClient, fetchClient. fold rawResponse.
      rewrite (resolve_pass _ _ _ Hstatus).
      rewrite (resolve_verdict rawResponse
                 (fun response => jsonContentTypeValidator genericError logger response None)
                 _ (error_of genericError));
        now rewrite Hct. }
    split; [exact Hclient|].
    rewrite Hclient. unfold events at 1. cbn [fst].
    now rewrite bodyRead_app, bodyRead_log, orb_false_r.
  - intros contentType Hstatus Hget Hin.
    pose proof (jsonContentTypeValidator_pass rawResponse None contentType Hget Hin)
      as Hct.
    destruct (toJsonResponse_total rawResponse None) as [result Hres].
    exists result. split; [exact Hres|].
    unfold client, defaultJsonFetchClient, fetchClient. fold rawResponse.
    rewrite (resolve_pass _ _ _ Hstatus).
    rewrite (resolve_pass rawResponse
               (fun response => jsonContentTypeValidator genericError logger response None));
      [|now rewrite Hct].
    rewrite (resolve_verdict rawResponse
               (fun response => toJsonResponse genericError logger response None)
               _ result Hres).
    now rewrite Hct.
Qed.

End Pipeline.

End Properties.

(** * The scenarios, run *)

(** The JSON client over a transport that answers [response], with a
    status validator that lets every response through. *)
Example scenario_ok :
  defaultJsonFetchClient internalError logger unit (fun _ => okResponse)
    acceptAnyStatus tt
  = ([EvReadBody], Normal (response_of (JObject [("id", JNumber one)]))).
Proof. reflexivity. Qed.

Example scenario_not_found :
  defaultJsonFetchClient internalError logger unit (fun _ => notFoundResponse)
    acceptAnyStatus tt
  = ([EvReadBody],
     Normal (error_of (JObject [("errorCode", JString "NOT_FOUND")]))).
Proof. reflexivity. Qed.

Example scenario_server_error :
  defaultJsonFetchClient internalError logger unit (fun _ => serverErrorResponse)
    acceptAnyStatus tt
  = ([EvReadBody; logged "Unrecognized JSON error" (LogResponse serverErrorResponse)],
     Normal (error_of internalError)).
Proof. reflexivity. Qed.

Example scenario_html :
  defaultJsonFetchClient internalError logger unit (fun _ => htmlResponse)
    acceptAnyStatus tt
  = ([logged "Response type is not JSON" (LogResponse htmlResponse)],
     Normal (error_of internalError)).
Proof. reflexivity. Qed.

(** A body that is the JSON text [null] on a failed response: the
    property access throws and the [catch] branch answers. *)
Example scenario_null_body :
  toJsonResponse internalError logger nullBodyResponse None
  = ([EvReadBody;
      logged "Cannot parse JSON"
        (LogError (TypeError "Cannot read properties of null (reading 'errorCode')"))],
     Normal (Some (error_of internalError))).
Proof. reflexivity. Qed.

(** The falsy values of [errorCode] all count as an error code. *)
Example falsy_errorCodes :
  Forall (fun errorCode =>
            ToBoolean errorCode = false /\
            defaultJsonErrorMapper internalError logger nullCodeResponse
              (JObject [("errorCode", errorCode)])
            = ([], Normal (error_of (JObject [("errorCode", errorCode)]))))
    [JNull; JBool false; JNumber (S754_zero false); JNumber (S754_zero true);
     JString ""].
Proof. repeat constructor. Qed.

(** Header values are stored without their outer whitespace, and the
    values of one name are joined. *)
Example Headers_of_normalizes :
  get (Headers_of [("Content-Type", "  application/json "); ("content-type", "x")])
    "content-type"
  = Some "application/json, x".
Proof. reflexivity. Qed.

(** [indexOf] on the headers of the examples. *)
Example indexOf_vendor : indexOf "application/vnd.app.v1+json" "json" = 23.
Proof. reflexivity. Qed.

Example indexOf_plain : indexOf "text/plain" "json" = -1.
Proof. reflexivity. Qed.

Example indexOf_empty_pattern : indexOf "text/plain" "" = 0.
Proof. reflexivity. Qed.

(** * Instances *)

Lemma toJsonResponse_success_witness :
  ok okResponse = true
  /\ body okResponse = inr (JObject [("id", JNumber one)])
  /\ outcome (toJsonResponse internalError logger okResponse None)
     = Normal (Some (response_of (JObject [("id", JNumber one)]))).
Proof.
  split; [reflexivity | split; [reflexivity|]].
  apply (toJsonResponse_success internalError logger okResponse None); reflexivity.
Defined.

Lemma toJsonResponse_failure_default_witness :
  outcome (toJsonResponse internalError logger notFoundResponse None)
  = Normal (Some (error_of (JObject [("errorCode", JString "NOT_FOUND")])))
  /\ outcome (toJsonResponse internalError logger serverErrorResponse None)
     = Normal (Some (error_of internalError)).
Proof.
  split.
  - apply (proj1 (toJsonResponse_failure_default internalError logger notFoundResponse
                    (JObject [("errorCode", JString "NOT_FOUND")]) eq_refl eq_refl)
             (JString "NOT_FOUND")).
    reflexivity.
  - apply (proj2 (toJsonResponse_failure_default internalError logger serverErrorResponse
                    (JObject [("message", JString "oops")]) eq_refl eq_refl)).
    reflexivity.
Defined.

Lemma toJsonResponse_unparsable_witness :
  body truncatedResponse = inl (SyntaxError "Unexpected end of JSON input")
  /\ outcome (toJsonResponse internalError logger truncatedResponse None)
     = Normal (Some (error_of internalError)).
Proof.
  split; [reflexivity|].
  apply (toJsonResponse_unparsable internalError logger truncatedResponse None
           (SyntaxError "Unexpected end of JSON input")).
  reflexivity.
Defined.

Lemma jsonContentTypeValidator_verdict_witness :
  outcome (jsonContentTypeValidator internalError logger htmlResponse None)
  = Normal (Some (error_of internalError))
  /\ outcome (jsonContentTypeValidator internalError logger okResponse None)
     = Normal None.
Proof.
  split.
  - apply (proj1 (jsonContentTypeValidator_verdict internalError logger htmlResponse None)).
    right. exists "text/html". split; [reflexivity|].
    apply indexOf_not_found. reflexivity.
  - apply (proj2 (jsonContentTypeValidator_verdict internalError logger okResponse None)
             "application/json"); [reflexivity|].
    exists "", "". reflexivity.
Defined.

Lemma pipeline_short_circuit_witness :
  defaultJsonFetchClient internalError logger unit (fun _ => htmlResponse)
    acceptAnyStatus tt
  = ([logged "Response type is not JSON" (LogResponse htmlResponse)],
     Normal (error_of internalError))
  /\ bodyRead (events (defaultJsonFetchClient internalError logger unit
                         (fun _ => htmlResponse) acceptAnyStatus tt))
     = false.
Proof.
  destruct (pipeline_short_circuit internalError logger unit (fun _ => htmlResponse)
              acceptAnyStatus tt) as [_ [_ [H _]]].
  apply H; [reflexivity|].
  apply indexOf_not_found. reflexivity.
Defined.

Lemma produced_exactly_one_witness :
  produced internalError logger (response_of (JObject [("id", JNumber one)]))
  /\ HttpResponse.exactly_one (response_of (JObject [("id", JNumber one)])) = true.
Proof.
  assert (produced internalError logger (response_of (JObject [("id", JNumber one)])))
    as H by (apply (produced_by_resolver _ _ okResponse); reflexivity).
  split; [exact H|].
  apply (produced_exactly_one internalError logger _ H).
Defined.

Lemma jsonContentTypeValidator_partial_match_witness :
  outcome (jsonContentTypeValidator internalError logger vendorResponse (Some "json"))
  = Normal None
  /\ outcome (jsonContentTypeValidator internalError logger plainResponse (Some "json"))
     = Normal (Some (error_of internalError))
  /\ outcome (jsonContentTypeValidator internalError logger upperCaseResponse (Some "json"))
     = Normal (Some (error_of internalError)).
Proof.
  split; [|split].
  - apply (proj1 (jsonContentTypeValidator_partial_match internalError logger
                    vendorResponse)).
    reflexivity.
  - apply (proj1 (proj2 (jsonContentTypeValidator_partial_match internalError logger
                           plainResponse))).
    reflexivity.
  - apply (proj2 (proj2 (jsonContentTypeValidator_partial_match internalError logger
                           upperCaseResponse))).
    reflexivity.
Defined.

Lemma handlers_total_witness :
  outcome (toJsonResponse internalError logger truncatedResponse None)
  = Normal (Some (error_of internalError))
  /\ outcome (toJsonResponse internalError logger nullBodyResponse None)
     = Normal (Some (error_of internalError)).
Proof.
  split.
  - destruct (handlers_total internalError logger truncatedResponse None None)
      as [_ [_ [H _]]].
    apply (H (SyntaxError "Unexpected end of JSON input")). reflexivity.
  - destruct (handlers_total internalError logger nullBodyResponse None None)
      as [_ [_ [_ H]]].
    apply (H JNull
             (TypeError "Cannot read properties of null (reading 'errorCode')"));
      reflexivity.
Defined.

Lemma defaultJsonErrorMapper_falsy_errorCode_witness :
  errorCode_field (JObject [("errorCode", JNull)]) = Some JNull
  /\ ToBoolean JNull = false
  /\ defaultJsonErrorMapper internalError logger nullCodeResponse
       (JObject [("errorCode", JNull)])
     = ([], Normal (error_of (JObject [("errorCode", JNull)]))).
Proof.
  split; [reflexivity | split; [reflexivity|]].
  apply (defaultJsonErrorMapper_falsy_errorCode internalError logger nullCodeResponse
           (JObject [("errorCode", JNull)]) JNull); reflexivity.
Defined.

(** * Further properties of the handlers *)

Lemma append_assoc (a b c : string) :
  ((a ++ b) ++ c = a ++ (b ++ c))%string.
Proof. induction a as [|x a IH]; simpl; [reflexivity | now rewrite IH]. Qed.

Lemma contains_trans (s e e' : string) :
  contains s e -> contains e e' -> contains s e'.
Proof.
  intros [b [a ->]] [b' [a' ->]]. exists (b ++ b')%string, (a' ++ a)%string.
  now rewrite !append_assoc.
Qed.

Section Resolver.

Variable genericError : JsValue.
Variable logger : Logger.t.

(** The whole run of the JSON resolver with the default error mapper. *)
Lemma toJsonResponse_default_run response :
  toJsonResponse genericError logger response None
  = match body response with
    | inl reason =>
        (EvReadBody
           :: map EvLog (Logger.sink logger "Cannot parse JSON" (LogError reason)),
         Normal (Some (error_of genericError)))
    | inr json =>
        if ok response then ([EvReadBody], Normal (Some (response_of json)))
        else match json with
             | JNull =>
                 (EvReadBody
                    :: map EvLog
                         (Logger.sink logger "Cannot parse JSON"
                            (LogError (TypeError
                               "Cannot read properties of null (reading 'errorCode')"))),
                  Normal (Some (error_of genericError)))
             | _ =>
                 match errorCode_field json with
                 | Some _ => ([EvReadBody], Normal (Some (error_of json)))
                 | None =>
                     (EvReadBody
                        :: map EvLog (Logger.sink logger "Unrecognized JSON error"
                                        (LogResponse response)),
                      Normal (Some (error_of genericError)))
                 end
             end
    end.
Proof.
  destruct (body response) as [reason|json] eqn:Hbody.
  - now apply toJsonResponse_rejected_run.
  - destruct (ok response) eqn:Hok.
    + now apply toJsonResponse_ok_run.
    + unfold toJsonResponse. run. rewrite Hbody, Hok. simpl.
      destruct json as [| | | | |fields]; simpl; rewrite ?app_nil_r; try reflexivity.
      unfold defaultJsonErrorMapper, errorCode_of. run.
      destruct (assoc "errorCode" fields) as [[]|]; simpl; rewrite ?app_nil_r;
        reflexivity.
Qed.

Lemma jsonContentTypeValidator_pass_inv response jsonContentType :
  outcome (jsonContentTypeValidator genericError logger response jsonContentType)
  = Normal None ->
  exists contentType,
    get (headers response) "content-type" = Some contentType
    /\ contains contentType (default_arg "application/json" jsonContentType).
Proof.
  unfold jsonContentTypeValidator.
  destruct (get (headers response) "content-type") as [contentType|];
    [|discriminate].
  destruct (indexOf contentType _ =? -1) eqn:E; [discriminate|]. intros _.
  exists contentType. split; [reflexivity|].
  destruct (indexOf_from_found (default_arg "application/json" jsonContentType)
              contentType 0) as [before [after [H _]]].
  - apply Z.eqb_neq in E. exact E.
  - now exists before, after.
Qed.

(** X1.  On a failed response whose body parses, the resolver hands the
    response and the parsed value to the error mapper it was given, after
    reading the body, and answers with the mapper's result, be it an
    error or a response. *)
Theorem toJsonResponse_delegates response (mapper : JsonErrorMapper) json result :
  ok response = false ->
  body response = inr json ->
  outcome (mapper response json) = Normal result ->
  toJsonResponse genericError logger response (Some mapper)
  = (EvReadBody :: events (mapper response json), Normal (Some result)).
Proof.
  intros Hok Hbody H. unfold toJsonResponse. run. rewrite Hbody, Hok. simpl.
  destruct (mapper response json) as [t c]. simpl in *. subst c.
  now rewrite app_nil_r.
Qed.

(** X2.  When the error mapper throws, the resolver logs the exception
    under the message of a parse failure, after whatever the mapper had
    emitted, and answers [{ error: genericError }]. *)
Theorem toJsonResponse_mapper_throws response (mapper : JsonErrorMapper) json e :
  ok response = false ->
  body response = inr json ->
  outcome (mapper response json) = Throw e ->
  toJsonResponse genericError logger response (Some mapper)
  = (EvReadBody
       :: events (mapper response json)
       ++ map EvLog (Logger.sink logger "Cannot parse JSON" (LogError e)),
     Normal (Some (error_of genericError))).
Proof.
  intros Hok Hbody H. unfold toJsonResponse. run. rewrite Hbody, Hok. simpl.
  destruct (mapper response json) as [t c]. simpl in *. subst c. simpl.
  now rewrite !app_nil_r.
Qed.

(** X3.  Called on [null], the default error mapper throws a [TypeError]
    and logs nothing; called on any other value it answers with an error
    result that holds the value itself or [genericError], never with a
    response. *)
Theorem defaultJsonErrorMapper_null_or_error response json :
  (json = JNull ->
   defaultJsonErrorMapper genericError logger response json
   = ([], Throw (TypeError "Cannot read properties of null (reading 'errorCode')")))
  /\ (json <> JNull ->
      exists e,
        outcome (defaultJsonErrorMapper genericError logger response json)
        = Normal (error_of e)
        /\ (e = json \/ e = genericError)).
Proof.
  split.
  - intros ->. reflexivity.
  - intros Hn. destruct (errorCode_field json) as [errorCode|] eqn:E.
    + exists json. rewrite (defaultJsonErrorMapper_defined _ _ _ _ _ E). auto.
    + exists genericError.
      rewrite (defaultJsonErrorMapper_undefined _ _ _ _ Hn E). auto.
Qed.

(** X4.  The error mapper is consulted only for a failed response whose
    body parses: when [ok] is true, or when the body cannot be read, the
    run of the resolver is the same whichever mapper it is given. *)
Theorem toJsonResponse_mapper_unused response (mapper1 mapper2 : option JsonErrorMapper) :
  ok response = true \/ (exists reason, body response = inl reason) ->
  toJsonResponse genericError logger response mapper1
  = toJsonResponse genericError logger response mapper2.
Proof.
  intros H. destruct (body response) as [reason|json] eqn:Hbody.
  - now rewrite !(toJsonResponse_rejected_run _ _ _ _ reason Hbody).
  - destruct H as [Hok | [reason H]]; [|discriminate].
    now rewrite !(toJsonResponse_ok_run _ _ _ _ json Hok Hbody).
Qed.

(** X5.  With the default error mapper, a result with a [response] is
    produced only for a response whose [ok] flag is true, and it holds
    the parsed body. *)
Theorem toJsonResponse_response_only_if_ok response result payload :
  outcome (toJsonResponse genericError logger response None) = Normal (Some result) ->
  HttpResponse.response result = Some payload ->
  ok response = true /\ body response = inr payload.
Proof.
  rewrite toJsonResponse_default_run.
  destruct (body response) as [reason|json]; simpl.
  - intros H; injection H as <-. discriminate.
  - destruct (ok response); simpl.
    + intros H; injection H as <-. simpl. intros H; injection H as ->. auto.
    + destruct json as [| | | | |fields]; simpl;
        try (intros H; injection H as <-; discriminate).
      destruct (assoc "errorCode" fields); simpl;
        intros H; injection H as <-; discriminate.
Qed.

(** X6.  With the default error mapper, the [error] of a result is
    [genericError], or it is the parsed body of a failed response and
    has an [errorCode] field. *)
Theorem toJsonResponse_error_has_errorCode response result e :
  outcome (toJsonResponse genericError logger response None) = Normal (Some result) ->
  HttpResponse.error result = Some e ->
  e = genericError
  \/ (ok response = false /\ body response = inr e
      /\ exists errorCode, errorCode_field e = Some errorCode).
Proof.
  rewrite toJsonResponse_default_run.
  destruct (body response) as [reason|json]; simpl.
  - intros H; injection H as <-. simpl. intros H; injection H as <-. now left.
  - destruct (ok response); simpl.
    + intros H; injection H as <-. discriminate.
    + destruct json as [| | | | |fields]; simpl;
        try (intros H; injection H as <-; simpl; intros H; injection H as <-;
             now left).
      destruct (assoc "errorCode" fields) as [errorCode|] eqn:E; simpl;
        intros H; injection H as <-; simpl; intros H; injection H as <-.
      * right. repeat split. exists errorCode. exact E.
      * now left.
Qed.

(** X7.  With the default error mapper the resolver reads the body
    exactly once, before anything else; all it does afterwards is
    logging. *)
Theorem toJsonResponse_reads_once response :
  exists entries,
    events (toJsonResponse genericError logger response None)
    = EvReadBody :: map EvLog entries.
Proof.
  rewrite toJsonResponse_default_run.
  destruct (body response) as [reason|json]; [eexists; reflexivity|].
  destruct (ok response); [now exists []|].
  destruct json as [| | | | |fields]; try (eexists; reflexivity).
  simpl. destruct (assoc "errorCode" fields); [now exists [] | eexists; reflexivity].
Qed.

End Resolver.

(** X8.  Handed an error mapper whose results all have exactly one of
    [response] and [error], the resolver only produces such results. *)
Theorem toJsonResponse_keeps_exactly_one
    genericError logger response (mapper : JsonErrorMapper) result :
  (forall json r,
     outcome (mapper response json) = Normal r -> HttpResponse.exactly_one r = true) ->
  outcome (toJsonResponse genericError logger response (Some mapper))
  = Normal (Some result) ->
  HttpResponse.exactly_one result = true.
Proof.
  intros Hmapper H. destruct (body response) as [reason|json] eqn:Hbody.
  - rewrite (toJsonResponse_rejected_run _ _ _ _ reason Hbody) in H.
    now injection H as <-.
  - destruct (ok response) eqn:Hok.
    + rewrite (toJsonResponse_ok_run _ _ _ _ json Hok Hbody) in H.
      now injection H as <-.
    + destruct (outcome (mapper response json)) as [r|e] eqn:E.
      * rewrite (toJsonResponse_maps _ _ _ (Some mapper) json r Hbody Hok E) in H.
        injection H as <-. exact (Hmapper json r E).
      * rewrite (toJsonResponse_absorbs _ _ _ (Some mapper) json e Hbody Hok E) in H.
        now injection H as <-.
Qed.

(** X9.  The content-type validator never reads the body, and with the
    module's logger it writes one record exactly when it rejects: a run
    either passes and emits nothing, or answers the generic error and
    emits the single record ["Response type is not JSON"]. *)
Theorem jsonContentTypeValidator_logs_iff_rejects genericError response jsonContentType :
  jsonContentTypeValidator genericError logger response jsonContentType
  = ([], Normal None)
  \/ jsonContentTypeValidator genericError logger response jsonContentType
     = ([logged "Response type is not JSON" (LogResponse response)],
        Normal (Some (error_of genericError))).
Proof.
  unfold jsonContentTypeValidator.
  destruct (get (headers response) "content-type") as [contentType|];
    [destruct (indexOf contentType _ =? -1)|]; auto.
Qed.

(** X10.  With the empty string as the expected substring the validator
    lets through every response that has a [content-type] header,
    whatever its value. *)
Theorem jsonContentTypeValidator_empty_expected
    genericError logger response contentType :
  get (headers response) "content-type" = Some contentType ->
  jsonContentTypeValidator genericError logger response (Some "")
  = ([], Normal None).
Proof.
  intros H. apply (jsonContentTypeValidator_pass _ _ _ _ contentType H).
  now exists "", contentType.
Qed.

(** X11.  A response the validator lets through with an expected
    substring is let through with every substring of it: looking for
    less never rejects more. *)
Theorem jsonContentTypeValidator_monotone
    genericError logger response (expected expected' : string) :
  contains expected expected' ->
  outcome (jsonContentTypeValidator genericError logger response (Some expected))
  = Normal None ->
  outcome (jsonContentTypeValidator genericError logger response (Some expected'))
  = Normal None.
Proof.
  intros Hsub H.
  destruct (jsonContentTypeValidator_pass_inv _ _ _ _ H) as [contentType [Hget Hin]].
  rewrite (jsonContentTypeValidator_pass _ _ _ (Some expected') contentType Hget);
    [reflexivity|].
  exact (contains_trans _ _ _ Hin Hsub).
Qed.

(** X12.  With the module's logger and the default error mapper, a run
    of the resolver either writes nothing and answers with the parsed
    body, as a response or as an error, or writes exactly one record and
    answers [{ error: genericError }]. *)
Theorem toJsonResponse_logs_generic_errors genericError response :
  (exists json,
     body response = inr json
     /\ (toJsonResponse genericError logger response None
         = ([EvReadBody], Normal (Some (response_of json)))
         \/ toJsonResponse genericError logger response None
            = ([EvReadBody], Normal (Some (error_of json)))))
  \/ (exists message arg,
        toJsonResponse genericError logger response None
        = ([EvReadBody; logged message arg], Normal (Some (error_of genericError)))).
Proof.
  rewrite !toJsonResponse_default_run.
  destruct (body response) as [reason|json].
  - right. eexists; eexists; reflexivity.
  - destruct (ok response).
    + left. exists json. auto.
    + destruct json as [| | | | |fields];
        try (right; eexists; eexists; reflexivity).
      simpl. destruct (assoc "errorCode" fields).
      * left. eexists. split; [reflexivity|]. now right.
      * right. eexists; eexists; reflexivity.
Qed.

(** ** The button *)

Lemma contains_eqb (s pat : string) :
  contains s pat <-> (indexOf s pat =? -1) = false.
Proof.
  rewrite Z.eqb_neq. split.
  - intros H E. now apply indexOf_not_found in E.
  - intros H. destruct (indexOf_from_found pat s 0 H) as [before [after [E _]]].
    now exists before, after.
Qed.

(** X13.  The class name of the button tells its size and its mode: two
    buttons with the same class name have the same size and the same
    mode, an omitted size counting as [medium] and an omitted [primary]
    as [false]. *)
Theorem Button_className_injective (Handler : Type) (p q : Button.Props Handler) :
  Button.className (Button.Button p) = Button.className (Button.Button q) ->
  default_arg Button.medium (Button.size p) = default_arg Button.medium (Button.size q)
  /\ default_arg false (Button.primary p) = default_arg false (Button.primary q).
Proof.
  unfold Button.Button. cbn [Button.className].
  destruct (Button.size p) as [[]|], (Button.size q) as [[]|],
    (Button.primary p) as [[]|], (Button.primary q) as [[]|];
    cbn; intros H; try discriminate H; split; reflexivity.
Qed.

(** X14.  The class name of the button starts with the base class and
    names exactly one size, the one given or [medium], and exactly one
    mode: the primary class occurs in it when [primary] is true, the
    secondary class when it is false or omitted. *)
Theorem Button_className_classes (Handler : Type) (p : Button.Props Handler) :
  let classes := Button.className (Button.Button p) in
  String.prefix "storybook-button " classes = true
  /\ (forall s,
        contains classes ("storybook-button--" ++ Button.Size_text s)%string
        <-> s = default_arg Button.medium (Button.size p))
  /\ (contains classes "storybook-button--primary"
      <-> default_arg false (Button.primary p) = true)
  /\ (contains classes "storybook-button--secondary"
      <-> default_arg false (Button.primary p) = false).
Proof.
  unfold Button.Button. cbn [Button.className].
  destruct (Button.size p) as [[]|], (Button.primary p) as [[]|]; cbn;
    (split; [reflexivity|]);
    (split; [intros []; rewrite contains_eqb; cbn; split; congruence|]);
    split; rewrite contains_eqb; cbn; split; congruence.
Qed.

(** ** Instances *)

Lemma toJsonResponse_delegates_witness :
  toJsonResponse internalError logger notFoundResponse
    (Some (fun _ json => ret (response_of json)))
  = ([EvReadBody],
     Normal (Some (response_of (JObject [("errorCode", JString "NOT_FOUND")])))).
Proof.
  apply (toJsonResponse_delegates internalError logger notFoundResponse
           (fun _ json => ret (response_of json))
           (JObject [("errorCode", JString "NOT_FOUND")])
           (response_of (JObject [("errorCode", JString "NOT_FOUND")])));
    reflexivity.
Defined.

Lemma toJsonResponse_mapper_throws_witness :
  toJsonResponse internalError logger serverErrorResponse
    (Some (fun _ _ => throw (TypeError "mapper failed")))
  = ([EvReadBody; logged "Cannot parse JSON" (LogError (TypeError "mapper failed"))],
     Normal (Some (error_of internalError))).
Proof.
  apply (toJsonResponse_mapper_throws internalError logger serverErrorResponse
           (fun _ _ => throw (TypeError "mapper failed"))
           (JObject [("message", JString "oops")])
           (TypeError "mapper failed"));
    reflexivity.
Defined.

Lemma defaultJsonErrorMapper_null_or_error_witness :
  defaultJsonErrorMapper internalError logger nullBodyResponse JNull
  = ([], Throw (TypeError "Cannot read properties of null (reading 'errorCode')"))
  /\ exists e,
       outcome (defaultJsonErrorMapper internalError logger serverErrorResponse
                  (JObject [("message", JString "oops")]))
       = Normal (error_of e)
       /\ (e = JObject [("message", JString "oops")] \/ e = internalError).
Proof.
  split.
  - apply (proj1 (defaultJsonErrorMapper_null_or_error internalError logger
                    nullBodyResponse JNull)).
    reflexivity.
  - apply (proj2 (defaultJsonErrorMapper_null_or_error internalError logger
                    serverErrorResponse (JObject [("message", JString "oops")]))).
    discriminate.
Defined.

Lemma toJsonResponse_mapper_unused_witness :
  ok okResponse = true
  /\ toJsonResponse internalError logger okResponse None
     = toJsonResponse internalError logger okResponse
         (Some (fun _ _ => throw (TypeError "mapper failed"))).
Proof.
  split; [reflexivity|].
  apply (toJsonResponse_mapper_unused internalError logger okResponse None
           (Some (fun _ _ => throw (TypeError "mapper failed")))).
  left. reflexivity.
Defined.

Lemma toJsonResponse_response_only_if_ok_witness :
  outcome (toJsonResponse internalError logger okResponse None)
  = Normal (Some (response_of (JObject [("id", JNumber one)])))
  /\ ok okResponse = true
  /\ body okResponse = inr (JObject [("id", JNumber one)]).
Proof.
  split; [reflexivity|].
  apply (toJsonResponse_response_only_if_ok internalError logger okResponse
           (response_of (JObject [("id", JNumber one)]))
           (JObject [("id", JNumber one)]));
    reflexivity.
Defined.

Lemma toJsonResponse_error_has_errorCode_witness :
  outcome (toJsonResponse internalError logger notFoundResponse None)
  = Normal (Some (error_of (JObject [("errorCode", JString "NOT_FOUND")])))
  /\ (JObject [("errorCode", JString "NOT_FOUND")] = internalError
      \/ (ok notFoundResponse = false
          /\ body notFoundResponse = inr (JObject [("errorCode", JString "NOT_FOUND")])
          /\ exists errorCode,
               errorCode_field (JObject [("errorCode", JString "NOT_FOUND")])
               = Some errorCode)).
Proof.
  split; [reflexivity|].
  apply (toJsonResponse_error_has_errorCode internalError logger notFoundResponse
           (error_of (JObject [("errorCode", JString "NOT_FOUND")])));
    reflexivity.
Defined.

Lemma toJsonResponse_keeps_exactly_one_witness :
  outcome (toJsonResponse internalError logger notFoundResponse
             (Some (fun _ json => ret (response_of json))))
  = Normal (Some (response_of (JObject [("errorCode", JString "NOT_FOUND")])))
  /\ HttpResponse.exactly_one
       (response_of (JObject [("errorCode", JString "NOT_FOUND")])) = true.
Proof.
  split; [reflexivity|].
  apply (toJsonResponse_keeps_exactly_one internalError logger notFoundResponse
           (fun _ json => ret (response_of json))).
  - intros json r H. injection H as <-. reflexivity.
  - reflexivity.
Defined.

Lemma jsonContentTypeValidator_empty_expected_witness :
  get (headers plainResponse) "content-type" = Some "text/plain"
  /\ jsonContentTypeValidator internalError logger plainResponse (Some "")
     = ([], Normal None).
Proof.
  split; [reflexivity|].
  apply (jsonContentTypeValidator_empty_expected internalError logger plainResponse
           "text/plain").
  reflexivity.
Defined.

Lemma jsonContentTypeValidator_monotone_witness :
  contains "application/json" "json"
  /\ outcome (jsonContentTypeValidator internalError logger okResponse
                (Some "application/json")) = Normal None
  /\ outcome (jsonContentTypeValidator internalError logger okResponse (Some "json"))
     = Normal None.
Proof.
  assert (contains "application/json" "json") as H
    by (exists "application/", ""; reflexivity).
  split; [exact H | split; [reflexivity|]].
  apply (jsonContentTypeValidator_monotone internalError logger okResponse
           "application/json" "json" H).
  reflexivity.
Defined.

Lemma Button_className_injective_witness :
  default_arg Button.medium (@None Button.Size) = default_arg Button.medium (Some Button.medium)
  /\ default_arg false (@None bool) = default_arg false (Some false).
Proof.
  apply (Button_className_injective unit
           {| Button.primary := None; Button.backgroundColor := None;
              Button.size := None; Button.label := "OK"; Button.onClick := None |}
           {| Button.primary := Some false; Button.backgroundColor := Some "red";
              Button.size := Some Button.medium; Button.label := "Cancel";
              Button.onClick := Some tt |}).
  reflexivity.
Defined.

